(** * Code-analysis Lambda dispatcher ([src/lambda/agent_handler.py])

    A shallow embedding of the three handlers of the module ([handler],
    [handle_prompt_analysis], [handle_s3_event]) and the properties of the
    request/response contract that follow from the code.

    Modelling conventions.
    - A Python [str] is a Rocq [string]; one character of the model stands
      for one code point below 256, so [len] is [String.length].
    - A Python [dict] with [str] keys is a [gmap string _]: the event, every
      response envelope, and the metadata of the written object. The
      envelope keys are the ones of the code: [request_id] is the request
      id and [processing_time_seconds] the processing time.
    - The collaborators (wall clock, S3 client, Strands agent) are the
      fields of a [world]; every call to one of them is appended to a trace,
      and a raised [Exception] is the [Raise] result carrying [str(e)].
    - [time.time()] returns a float; the model idealises it as a rational.
    - [logger] calls have no effect on the result and are left out; the
      event is a decoded JSON document, so the [json.dumps(event)] inside
      one of them does not raise. *)

From Stdlib Require Import ZArith QArith Qabs String Ascii List DecimalString Lia.
From stdpp Require Import gmap strings list fin_maps.

Set Warnings "-register-all".
Local Open Scope string_scope.

(** ** Python strings *)

Module PyStr.

(** [c in s] for a one-character [c]. *)
Fixpoint contains (c : ascii) (s : string) : bool :=
  match s with
  | EmptyString => false
  | String a s' => if Ascii.eqb a c then true else contains c s'
  end.

(** [s.split(sep)] for a one-character separator. *)
Fixpoint split (sep : ascii) (s : string) : list string :=
  match s with
  | EmptyString => [EmptyString]
  | String a s' =>
      if Ascii.eqb a sep then EmptyString :: split sep s'
      else match split sep s' with
           | p :: ps => String a p :: ps
           | [] => [String a EmptyString]
           end
  end.

(** [l[-1]]; [split] never returns the empty list ([split_nonempty]), so
    the [IndexError] case of the subscript does not arise. *)
Definition last_item (l : list string) : string := List.last l EmptyString.

(** [str.lower()] on one code point below 256: A-Z and the Latin-1
    capitals (U+00C0..U+00DE without the multiplication sign U+00D7). *)
Definition lower_char (a : ascii) : ascii :=
  let n := nat_of_ascii a in
  if ((65 <=? n) && (n <=? 90)
      || (192 <=? n) && (n <=? 222) && negb (n =? 215))%nat
  then ascii_of_nat (n + 32) else a.

Fixpoint lower (s : string) : string :=
  match s with
  | EmptyString => EmptyString
  | String a s' => String (lower_char a) (lower s')
  end.

(** [s.replace(old, new)] for one-character [old] and [new]. *)
Fixpoint replace (old new : ascii) (s : string) : string :=
  match s with
  | EmptyString => EmptyString
  | String a s' =>
      String (if Ascii.eqb a old then new else a) (replace old new s')
  end.

(** The slice [s[:n]]. *)
Fixpoint slice_to (n : nat) (s : string) : string :=
  match n, s with
  | S n', String a s' => String a (slice_to n' s')
  | _, _ => EmptyString
  end.

(** [str(n)] for an [int]. *)
Definition of_int (n : Z) : string := NilZero.string_of_int (Z.to_int n).

Definition digit (n : nat) : ascii := ascii_of_nat (48 + n mod 10).

(** Zero-padded decimal fields of [strftime]: [%m], [%d], [%H], [%M],
    [%S] (two digits) and [%Y] (four digits). *)
Definition pad2 (n : nat) : string :=
  String (digit (n / 10)) (String (digit n) EmptyString).

Definition pad4 (n : nat) : string :=
  String (digit (n / 1000)) (String (digit (n / 100)) (pad2 n)).

End PyStr.

(** ** Python values and dictionaries *)

Inductive value : Type :=
| VNone
| VBool (b : bool)
| VInt (n : Z)
| VFloat (q : Q)
| VStr (s : string)
| VList (l : list value)
| VDict (d : gmap string value).

(** Truth value testing, as [if x] and [not x] apply it. *)
Definition truthy (v : value) : bool :=
  match v with
  | VNone => false
  | VBool b => b
  | VInt n => negb (n =? 0)%Z
  | VFloat q => negb (Qeq_bool q 0)
  | VStr s => negb (String.eqb s "")
  | VList l => match l with [] => false | _ :: _ => true end
  | VDict d => negb (bool_decide (d = ∅))
  end.

(** [v == s] for a [str] literal [s]: only an equal [str] compares equal. *)
Definition eq_str (v : value) (s : string) : bool :=
  match v with
  | VStr s' => String.eqb s' s
  | _ => false
  end.

(** [d.get(k)], with the default [None]. *)
Definition dict_get (d : gmap string value) (k : string) : value :=
  default VNone (d !! k).

(** [k in d]. *)
Definition dict_has (d : gmap string value) (k : string) : bool :=
  bool_decide (is_Some (d !! k)).

(** A dictionary display [{k1: v1, ..., kn: vn}]: the items are stored from
    left to right, a later item replacing an earlier one with the same key. *)
Definition dict {V : Type} (items : list (string * V)) : gmap string V :=
  fold_left (fun m kv => <[kv.1 := kv.2]> m) items ∅.

(** [round(x, 3)]: the multiple of 1/1000 nearest to [x], a tie going to
    the even multiple. *)
Definition round3 (x : Q) : Q :=
  let n := (Qnum x * 1000)%Z in
  let d := Z.pos (Qden x) in
  let z := (n / d)%Z in
  let r := (n mod d)%Z in
  let up := match (2 * r ?= d)%Z with
            | Lt => false
            | Gt => true
            | Eq => Z.odd z
            end in
  Qmake (if up then z + 1 else z) 1000.

(** ** Collaborators, trace and the exception monad *)

(** [str(e)] of a raised [Exception]. *)
Definition exn : Type := string.

Inductive result (A : Type) : Type :=
| Ok (a : A)
| Raise (e : exn).
Arguments Ok {A} a.
Arguments Raise {A} e.

(** What [datetime.now()] returns, to the second. *)
Record datetime : Type := {
  year : nat; month : nat; day : nat;
  hour : nat; minute : nat; second : nat
}.

(** The keyword arguments of [s3_client.put_object]. *)
Record put_request : Type := {
  Bucket : value;
  Key : string;
  Body : string;
  ContentType : string;
  Metadata : gmap string string
}.

(** The calls a handler makes to its collaborators. *)
Inductive call : Type :=
| TimeTime
| DatetimeNow
| Boto3Client
| GetObject (bucket key : value)
| NewAgent
| AgentCall (prompt : value)
| PutObject (r : put_request).

(** The collaborators. The clock and the calendar are read at a position of
    the trace (the number of calls made so far); the other answers depend on
    the arguments only. [s3_get] is asked for [str] arguments; for any other
    [Bucket] or [Key] botocore's parameter validation raises before a
    request is sent, with the message [s3_invalid]. [agent_new] stands for
    [BedrockModel(...)] followed by [Agent(...)], [agent_run] for
    [str(agent(prompt))], and [s3_get] for [get_object] followed by the read
    and UTF-8 decoding of the body and the [ContentLength] lookup. *)
Record world : Type := {
  clock : nat -> Q;
  calendar : nat -> datetime;
  s3_client : result unit;
  s3_get : string -> string -> result (string * Z);
  s3_invalid : value -> value -> exn;
  s3_put : put_request -> result unit;
  agent_new : string -> result unit;
  agent_run : string -> value -> result string
}.

(** A computation reads the trace so far and returns a value or a raised
    exception, with the extended trace. *)
Definition M (A : Type) : Type := list call -> result A * list call.

Definition ret {A} (a : A) : M A := fun tr => (Ok a, tr).

Definition bind {A B} (m : M A) (k : A -> M B) : M B :=
  fun tr =>
    match m tr with
    | (Ok a, tr') => k a tr'
    | (Raise e, tr') => (Raise e, tr')
    end.

Definition raise {A} (e : exn) : M A := fun tr => (Raise e, tr).

(** [try: x = m / except Exception as e: h(e) / else: k(x)], where [h] and
    [k] run outside the guarded block. *)
Definition try_else {A B} (m : M A) (h : exn -> M B) (k : A -> M B) : M B :=
  fun tr =>
    match m tr with
    | (Ok a, tr') => k a tr'
    | (Raise e, tr') => h e tr'
    end.

(** [try: m / except Exception as e: h(e)]. *)
Definition try_except {A} (m : M A) (h : exn -> M A) : M A :=
  try_else m h ret.

(** One call to a collaborator: the answer is taken at the current position
    and the call is appended to the trace. *)
Definition external {A} (c : call) (answer : nat -> result A) : M A :=
  fun tr => (answer (List.length tr), (tr ++ [c])%list).

Notation "x <- m ;; k" := (bind m (fun x => k))
  (at level 100, m at next level, right associativity).
Notation "m ;;; k" := (bind m (fun _ => k))
  (at level 100, right associativity).

(** ** The handlers *)

Record lambda_context : Type := { aws_request_id : string }.

Definition CODE_ANALYSIS_SYSTEM_PROMPT : string :=
"You are a code analysis assistant with HTTP capabilities. You can:

1. Analyze code files from S3 buckets
2. Identify code quality issues, security vulnerabilities, and best practices
3. Generate detailed analysis reports
4. Make HTTP requests to external APIs for additional context

When analyzing code:
1. Focus on code quality, security, performance, and maintainability
2. Identify potential bugs, security vulnerabilities, and anti-patterns
3. Suggest improvements and best practices
4. Provide clear, actionable recommendations
5. Format your analysis in a structured, readable format

Always provide constructive feedback and explain the reasoning behind your recommendations.
".

(** [context.aws_request_id if context else "unknown"]. *)
Definition request_id_of (context : option lambda_context) : string :=
  match context with
  | Some c => aws_request_id c
  | None => "unknown"
  end.

(** [datetime.strftime("%Y%m%d_%H%M%S")]. *)
Definition strftime (t : datetime) : string :=
  PyStr.pad4 (year t) ++ PyStr.pad2 (month t) ++ PyStr.pad2 (day t) ++ "_"
  ++ PyStr.pad2 (hour t) ++ PyStr.pad2 (minute t) ++ PyStr.pad2 (second t).

(** [object_key.split('.')[-1].lower() if '.' in object_key else 'unknown'] *)
Definition file_extension_of (object_key : string) : string :=
  if PyStr.contains "." object_key
  then PyStr.lower (PyStr.last_item (PyStr.split "." object_key))
  else "unknown".

(** The f-string of [analysis_prompt]. *)
Definition analysis_prompt_of
    (file_extension object_key : string) (file_size : Z)
    (file_content : string) : string :=
"
        Analyze this " ++ file_extension ++ " code file: " ++ object_key ++ "
        
        File size: " ++ PyStr.of_int file_size ++ " bytes
        
        Code content:
        ```" ++ file_extension ++ "
        " ++ file_content ++ "
        ```
        
        Please provide a comprehensive analysis including:
        1. Code quality assessment
        2. Security vulnerabilities
        3. Performance considerations
        4. Best practices recommendations
        5. Specific improvements with code examples
        ".

(** [f"analysis/{object_key.replace('/', '_')}_{timestamp}_analysis.md"] *)
Definition output_key_of (object_key timestamp : string) : string :=
  "analysis/" ++ PyStr.replace "/" "_" object_key ++ "_" ++ timestamp
  ++ "_analysis.md".

(** [analysis_result[:500] + "..." if len(analysis_result) > 500
     else analysis_result] *)
Definition analysis_preview_of (analysis_result : string) : string :=
  if (500 <? String.length analysis_result)%nat
  then PyStr.slice_to 500 analysis_result ++ "..."
  else analysis_result.

Definition len (s : string) : value := VInt (Z.of_nat (String.length s)).

Section Handlers.

Variable W : world.

Definition time_time : M Q :=
  external TimeTime (fun n => Ok (clock W n)).

Definition datetime_now : M datetime :=
  external DatetimeNow (fun n => Ok (calendar W n)).

Definition boto3_client : M unit :=
  external Boto3Client (fun _ => s3_client W).

Definition get_object (bucket key : value) : M (string * Z) :=
  external (GetObject bucket key)
    (fun _ => match bucket, key with
              | VStr b, VStr k => s3_get W b k
              | _, _ => Raise (s3_invalid W bucket key)
              end).

Definition put_object (r : put_request) : M unit :=
  external (PutObject r) (fun _ => s3_put W r).

Definition new_agent (system_prompt : string) : M unit :=
  external NewAgent (fun _ => agent_new W system_prompt).

Definition agent_call (system_prompt : string) (prompt : value) : M string :=
  external (AgentCall prompt) (fun _ => agent_run W system_prompt prompt).

Definition handle_prompt_analysis
    (event : gmap string value) (context : option lambda_context)
    (start_time : Q) : M (gmap string value) :=
  let request_id := request_id_of context in
  let prompt := default (VStr "") (event !! "prompt") in
  try_except
    (new_agent CODE_ANALYSIS_SYSTEM_PROMPT ;;;
     analysis_result <- agent_call CODE_ANALYSIS_SYSTEM_PROMPT prompt ;;
     now <- time_time ;;
     let processing_time := (now - start_time)%Q in
     ret (dict [("status", VStr "success");
                ("message", VStr "Code analysis completed");
                ("request_id", VStr request_id);
                ("analysis", VStr analysis_result);
                ("processing_time_seconds", VFloat (round3 processing_time));
                ("input_prompt", prompt)]))
    (fun e =>
       ret (dict [("status", VStr "error");
                  ("message", VStr ("Analysis failed: " ++ e));
                  ("request_id", VStr request_id)])).

(** The part of [handle_s3_event] that follows the read of the file. *)
Definition analyse_file
    (request_id bucket_name object_key : string) (output_bucket : value)
    (start_time : Q) (file_content : string) (file_size : Z)
    : M (gmap string value) :=
  let file_extension := file_extension_of object_key in
  let analysis_prompt :=
    analysis_prompt_of file_extension object_key file_size file_content in
  new_agent CODE_ANALYSIS_SYSTEM_PROMPT ;;;
  analysis_result <-
    agent_call CODE_ANALYSIS_SYSTEM_PROMPT (VStr analysis_prompt) ;;
  t <- datetime_now ;;
  let timestamp := strftime t in
  let output_key := output_key_of object_key timestamp in
  (if truthy output_bucket then
     try_except
       (put_object
          {| Bucket := output_bucket;
             Key := output_key;
             Body := analysis_result;
             ContentType := "text/markdown";
             Metadata := dict [("source-bucket", bucket_name);
                               ("source-key", object_key);
                               ("analysis-timestamp", timestamp);
                               ("file-type", file_extension);
                               ("request-id", request_id)] |})
       (fun _ => ret tt)
   else ret tt) ;;;
  now <- time_time ;;
  let processing_time := (now - start_time)%Q in
  ret (dict [("status", VStr "success");
             ("message", VStr "S3 code analysis completed");
             ("request_id", VStr request_id);
             ("input", VDict (dict [("bucket", VStr bucket_name);
                                    ("key", VStr object_key);
                                    ("file_size", VInt file_size);
                                    ("file_type", VStr file_extension)]));
             ("output", VDict (dict [("bucket", output_bucket);
                                     ("key", if truthy output_bucket
                                             then VStr output_key
                                             else VNone);
                                     ("analysis_length",
                                      len analysis_result)]));
             ("processing_time_seconds", VFloat (round3 processing_time));
             ("analysis_preview",
              VStr (analysis_preview_of analysis_result))]).

Definition handle_s3_event
    (event : gmap string value) (context : option lambda_context)
    (start_time : Q) : M (gmap string value) :=
  let request_id := request_id_of context in
  try_except
    (let bucket_name := dict_get event "bucket" in
     let object_key := dict_get event "key" in
     let output_bucket := dict_get event "outputBucket" in
     if negb (truthy bucket_name) || negb (truthy object_key) then
       let error_msg := "Missing bucket name or object key in S3 event" in
       ret (dict [("status", VStr "error"); ("message", VStr error_msg)])
     else
       boto3_client ;;;
       try_else (get_object bucket_name object_key)
         (fun e =>
            let error_msg := "Failed to read file from S3: " ++ e in
            ret (dict [("status", VStr "error");
                       ("message", VStr error_msg)]))
         (fun '(file_content, file_size) =>
            match bucket_name, object_key with
            | VStr b, VStr k =>
                analyse_file request_id b k output_bucket start_time
                  file_content file_size
            | _, _ =>
                (* not reached: [get_object] raises for these *)
                raise (s3_invalid W bucket_name object_key)
            end))
    (fun e =>
       ret (dict [("status", VStr "error");
                  ("message", VStr ("S3 analysis failed: " ++ e));
                  ("request_id", VStr request_id)])).

Definition handler
    (event : gmap string value) (context : option lambda_context)
    : M (gmap string value) :=
  start_time <- time_time ;;
  let request_id := request_id_of context in
  try_except
    (if dict_has event "source"
        && eq_str (dict_get event "source") "eventbridge"
     then handle_s3_event event context start_time
     else if dict_has event "prompt"
     then handle_prompt_analysis event context start_time
     else
       now <- time_time ;;
       let processing_time := (now - start_time)%Q in
       ret (dict [("status", VStr "success");
                  ("message", VStr "Code Analysis Strands Agent invoked");
                  ("request_id", VStr request_id);
                  ("processing_time_seconds",
                   VFloat (round3 processing_time));
                  ("version", VStr "1.0.0-strands")]))
    (fun e =>
       ret (dict [("status", VStr "error");
                  ("message", VStr ("Internal server error: " ++ e));
                  ("request_id", VStr request_id)])).

End Handlers.

(** ** One invocation and what is observed of it *)

(** The Lambda runtime calls [handler] once per request; the trace of the
    invocation starts empty. *)
Definition invoke (W : world) (event : gmap string value)
    (context : option lambda_context)
    : result (gmap string value) * list call :=
  handler W event context [].

(** The event-source marker: a [source] field equal to ["eventbridge"]. *)
Definition has_marker (event : gmap string value) : bool :=
  match event !! "source" with
  | Some (VStr s) => String.eqb s "eventbridge"
  | _ => false
  end.

(** A field that is absent, or present with a value that tests false
    ([None], the empty string, and the other empty values). *)
Definition missing_or_empty (event : gmap string value) (k : string) : Prop :=
  truthy (dict_get event k) = false.

Definition is_store_call (c : call) : bool :=
  match c with
  | GetObject _ _ | PutObject _ => true
  | _ => false
  end.

Definition is_put (c : call) : bool :=
  match c with
  | PutObject _ => true
  | _ => false
  end.

(** The calls of a trace that reach the object store. *)
Definition store_calls (tr : list call) : list call :=
  List.filter is_store_call tr.

(** The write requests of a trace. *)
Definition writes (tr : list call) : list call := List.filter is_put tr.

(** The envelope of the last branch of [handler]. *)
Definition default_envelope (request_id : string) (processing_time : Q)
    : gmap string value :=
  dict [("status", VStr "success");
        ("message", VStr "Code Analysis Strands Agent invoked");
        ("request_id", VStr request_id);
        ("processing_time_seconds", VFloat (round3 processing_time));
        ("version", VStr "1.0.0-strands")].

(** The prompt [handle_s3_event] builds for a file. *)
Definition prompt_for (object_key : string) (file_size : Z)
    (file_content : string) : value :=
  VStr (analysis_prompt_of (file_extension_of object_key) object_key
          file_size file_content).

(** Every step of the event-sourced path up to and including the analysis
    call succeeds: [bucket] and [key] are the non-empty strings [b] and [k],
    the client is created, the object is read as [content] of [size] bytes,
    the agent is built and answers [text]. *)
Record analysis_succeeds (W : world) (event : gmap string value)
    (b k content : string) (size : Z) (text : string) : Prop := {
  ok_marker : has_marker event = true;
  ok_bucket : event !! "bucket" = Some (VStr b);
  ok_bucket_nonempty : b <> "";
  ok_key : event !! "key" = Some (VStr k);
  ok_key_nonempty : k <> "";
  ok_client : s3_client W = Ok tt;
  ok_get : s3_get W b k = Ok (content, size);
  ok_agent : agent_new W CODE_ANALYSIS_SYSTEM_PROMPT = Ok tt;
  ok_analysis :
    agent_run W CODE_ANALYSIS_SYSTEM_PROMPT (prompt_for k size content)
    = Ok text
}.

(** The request [handle_s3_event] writes for the analysis [text] of the
    object [(b, k)], stamped [timestamp]. *)
Definition write_request (request_id b k : string) (output_bucket : value)
    (timestamp text : string) : put_request :=
  {| Bucket := output_bucket;
     Key := output_key_of k timestamp;
     Body := text;
     ContentType := "text/markdown";
     Metadata := dict [("source-bucket", b);
                       ("source-key", k);
                       ("analysis-timestamp", timestamp);
                       ("file-type", file_extension_of k);
                       ("request-id", request_id)] |}.

(** The calls of an event-sourced invocation up to the analysis call. *)
Definition analysis_calls (b k content : string) (size : Z) : list call :=
  [TimeTime; Boto3Client; GetObject (VStr b) (VStr k); NewAgent;
   AgentCall (prompt_for k size content)].

(** *** Reading a timestamp back *)

Definition digit_value (a : ascii) : option nat :=
  let n := nat_of_ascii a in
  if ((48 <=? n) && (n <=? 57))%nat then Some (n - 48)%nat else None.

(** The number written by a string of decimal digits. *)
Fixpoint number_of (acc : nat) (s : string) : option nat :=
  match s with
  | EmptyString => Some acc
  | String a s' =>
      match digit_value a with
      | Some d => number_of (10 * acc + d) s'
      | None => None
      end
  end.

(** Reads a string of the shape YYYYMMDD_HHMMSS. *)
Definition parse_timestamp (s : string) : option datetime :=
  if negb (String.length s =? 15)%nat then None
  else if negb (String.eqb (substring 8 1 s) "_") then None
  else
    match number_of 0 (substring 0 4 s), number_of 0 (substring 4 2 s),
          number_of 0 (substring 6 2 s), number_of 0 (substring 9 2 s),
          number_of 0 (substring 11 2 s), number_of 0 (substring 13 2 s) with
    | Some y, Some mo, Some d, Some h, Some mi, Some sec =>
        Some {| year := y; month := mo; day := d;
                hour := h; minute := mi; second := sec |}
    | _, _, _, _, _, _ => None
    end.

(** The range of [datetime.now()] on which [%Y] prints four digits. *)
Definition four_digit_year (t : datetime) : Prop :=
  (1000 <= Z.of_nat (year t) <= 9999)%Z
  /\ (month t <= 12 /\ day t <= 31
      /\ hour t <= 23 /\ minute t <= 59 /\ second t <= 59)%nat.

(** ** Sample requests and collaborators *)

Module Sample.

Definition noon : datetime :=
  {| year := 2024; month := 3; day := 7;
     hour := 12; minute := 0; second := 9 |}.

(** Every collaborator answers; the clock advances 1/8 s per call. *)
Definition all_well : world :=
  {| clock := fun n => (Z.of_nat n # 8)%Q;
     calendar := fun _ => noon;
     s3_client := Ok tt;
     s3_get := fun _ _ => Ok ("print(1)", 8%Z);
     s3_invalid := fun _ _ => "Parameter validation failed";
     s3_put := fun _ => Ok tt;
     agent_new := fun _ => Ok tt;
     agent_run := fun _ _ => Ok "Looks fine." |}.

(** The write to the output bucket is refused. *)
Definition write_refused : world :=
  {| clock := clock all_well;
     calendar := calendar all_well;
     s3_client := Ok tt;
     s3_get := s3_get all_well;
     s3_invalid := s3_invalid all_well;
     s3_put := fun _ => Raise "AccessDenied";
     agent_new := fun _ => Ok tt;
     agent_run := agent_run all_well |}.

(** The agent call fails. *)
Definition agent_down : world :=
  {| clock := clock all_well;
     calendar := calendar all_well;
     s3_client := Ok tt;
     s3_get := s3_get all_well;
     s3_invalid := s3_invalid all_well;
     s3_put := fun _ => Ok tt;
     agent_new := fun _ => Ok tt;
     agent_run := fun _ _ => Raise "ThrottlingException" |}.

Definition context : option lambda_context :=
  Some {| aws_request_id := "req-1" |}.

(** [{"source": "eventbridge", "bucket": "src", "key": "app.py",
     "outputBucket": "out"}] *)
Definition file_event : gmap string value :=
  dict [("source", VStr "eventbridge"); ("bucket", VStr "src");
        ("key", VStr "app.py"); ("outputBucket", VStr "out")].

(** [{"source": "eventbridge", "bucket": "src"}]: no [key]. *)
Definition keyless_event : gmap string value :=
  dict [("source", VStr "eventbridge"); ("bucket", VStr "src")].

(** [{"source": "eventbridge"}] *)
Definition bare_event : gmap string value :=
  dict [("source", VStr "eventbridge")].

(** [{"prompt": "review this snippet"}] *)
Definition prompt_event : gmap string value :=
  dict [("prompt", VStr "review this snippet")].

(** [{"prompt": ""}]: a prompt field that is empty. *)
Definition empty_prompt_event : gmap string value :=
  dict [("prompt", VStr "")].

(** [{}] *)
Definition empty_event : gmap string value := dict [].

(** An analysis of 600 characters. *)
Definition long_text : string :=
  string_of_list_ascii (List.repeat "x"%char 600).

End Sample.

(** ** Further observations of an invocation *)

Definition is_get (c : call) : bool :=
  match c with
  | GetObject _ _ => true
  | _ => false
  end.

Definition is_agent_call (c : call) : bool :=
  match c with
  | AgentCall _ => true
  | _ => false
  end.

(** How many calls of a trace pass a test. *)
Definition count (f : call -> bool) (tr : list call) : nat :=
  List.length (List.filter f tr).

(** The same collaborators, with another answer to [put_object]. *)
Definition with_put (W : world) (put : put_request -> result unit) : world :=
  {| clock := clock W;
     calendar := calendar W;
     s3_client := s3_client W;
     s3_get := s3_get W;
     s3_invalid := s3_invalid W;
     s3_put := put;
     agent_new := agent_new W;
     agent_run := agent_run W |}.

(** A clock that never runs backwards. *)
Definition monotone_clock (W : world) : Prop :=
  forall n m : nat, (n <= m)%nat -> (clock W n <= clock W m)%Q.

(** The text of the exception that a call raises, when the collaborator's
    answer to it is an exception. *)
Definition raised_by (W : world) (c : call) : option exn :=
  match c with
  | TimeTime | DatetimeNow => None
  | Boto3Client =>
      match s3_client W with Raise e => Some e | Ok _ => None end
  | GetObject (VStr b) (VStr k) =>
      match s3_get W b k with Raise e => Some e | Ok _ => None end
  | GetObject bucket key => Some (s3_invalid W bucket key)
  | NewAgent =>
      match agent_new W CODE_ANALYSIS_SYSTEM_PROMPT with
      | Raise e => Some e
      | Ok _ => None
      end
  | AgentCall prompt =>
      match agent_run W CODE_ANALYSIS_SYSTEM_PROMPT prompt with
      | Raise e => Some e
      | Ok _ => None
      end
  | PutObject r => match s3_put W r with Raise e => Some e | Ok _ => None end
  end.

(** The prefix of the message that reports a failure of the call [c]: the
    inner [except] of [handle_s3_event] for the read, and otherwise the
    outer [except] of the handler the request is routed to. *)
Definition error_prefix (event : gmap string value) (c : call) : string :=
  match c with
  | GetObject _ _ => "Failed to read file from S3: "
  | _ => if has_marker event then "S3 analysis failed: "
         else "Analysis failed: "
  end.

(** What the message of an error envelope says: the fixed validation
    message, when only the first clock read was made; or the prefix for the
    last call of the invocation followed by the text of the exception that
    this call raised. *)
Definition error_explained (W : world) (event : gmap string value)
    (calls : list call) (msg : string) : Prop :=
  (msg = "Missing bucket name or object key in S3 event"
   /\ calls = [TimeTime])
  \/ exists e : exn,
       raised_by W (List.last calls TimeTime) = Some e
       /\ msg = error_prefix event (List.last calls TimeTime) ++ e.

Module Scenario.

(** The object is not in the bucket. *)
Definition object_missing : world :=
  {| clock := clock Sample.all_well;
     calendar := calendar Sample.all_well;
     s3_client := Ok tt;
     s3_get := fun _ _ => Raise "NoSuchKey";
     s3_invalid := s3_invalid Sample.all_well;
     s3_put := fun _ => Ok tt;
     agent_new := fun _ => Ok tt;
     agent_run := agent_run Sample.all_well |}.

(** The S3 client cannot be created. *)
Definition no_region : world :=
  {| clock := clock Sample.all_well;
     calendar := calendar Sample.all_well;
     s3_client := Raise "NoRegionError";
     s3_get := s3_get Sample.all_well;
     s3_invalid := s3_invalid Sample.all_well;
     s3_put := fun _ => Ok tt;
     agent_new := fun _ => Ok tt;
     agent_run := agent_run Sample.all_well |}.

(** [{"source": "aws.s3", "bucket": "src", "key": "app.py",
     "outputBucket": "out"}]: a file request without the marker. *)
Definition unmarked_event : gmap string value :=
  dict [("source", VStr "aws.s3"); ("bucket", VStr "src");
        ("key", VStr "app.py"); ("outputBucket", VStr "out")].

Definition new_year : datetime :=
  {| year := 2025; month := 1; day := 1;
     hour := 0; minute := 0; second := 0 |}.

(** The agent answers with an analysis of 600 characters. *)
Definition verbose_agent : world :=
  {| clock := clock Sample.all_well;
     calendar := calendar Sample.all_well;
     s3_client := Ok tt;
     s3_get := s3_get Sample.all_well;
     s3_invalid := s3_invalid Sample.all_well;
     s3_put := fun _ => Ok tt;
     agent_new := fun _ => Ok tt;
     agent_run := fun _ _ => Ok Sample.long_text |}.

End Scenario.

(** ** Proof automation *)

(** Unfolds a handler into the case analysis on the collaborators' answers,
    leaving the dictionaries and the string operations folded. *)
Ltac run_handler :=
  cbv beta iota zeta delta
    [invoke handler handle_s3_event handle_prompt_analysis analyse_file
     try_except try_else bind ret raise external time_time datetime_now
     boto3_client get_object put_object new_agent agent_call].

(** ** Facts about the string operations *)

Module PyStrFacts.
Import PyStr.

Lemma append_cons (a : ascii) (s1 s2 : string) :
  String a s1 ++ s2 = String a (s1 ++ s2).
Proof. reflexivity. Qed.

Lemma length_append (s1 s2 : string) :
  String.length (s1 ++ s2) = (String.length s1 + String.length s2)%nat.
Proof.
  induction s1 as [|a s1 IH]; [reflexivity |].
  rewrite append_cons. simpl. now rewrite IH.
Qed.

Lemma contains_append (c : ascii) (s1 s2 : string) :
  contains c (s1 ++ s2) = contains c s1 || contains c s2.
Proof.
  induction s1 as [|a s1 IH]; [reflexivity |].
  rewrite append_cons. simpl.
  destruct (Ascii.eqb a c); [reflexivity | exact IH].
Qed.

Lemma split_nonempty (sep : ascii) (s : string) : split sep s <> [].
Proof.
  destruct s as [|a s]; simpl; [discriminate |].
  destruct (Ascii.eqb a sep); [discriminate |].
  destruct (split sep s); discriminate.
Qed.

(** Without the separator the string is the only part. *)
Lemma split_without (sep : ascii) (s : string) :
  contains sep s = false -> split sep s = [s].
Proof.
  induction s as [|a s IH]; simpl; [reflexivity |].
  destruct (Ascii.eqb a sep); [discriminate |].
  intros H. now rewrite (IH H).
Qed.

(** The last part holds no separator. *)
Lemma last_item_split_clean (sep : ascii) (s : string) :
  contains sep (last_item (split sep s)) = false.
Proof.
  unfold last_item.
  induction s as [|a s IH]; simpl; [reflexivity |].
  destruct (Ascii.eqb a sep) eqn:Ea.
  - pose proof (split_nonempty sep s) as Hne.
    destruct (split sep s) as [|p ps]; [congruence | exact IH].
  - pose proof (split_nonempty sep s) as Hne.
    destruct (split sep s) as [|p ps]; [congruence |].
    destruct ps as [|q qs]; [| exact IH].
    simpl in *. now rewrite Ea.
Qed.

(** With the separator there are at least two parts. *)
Lemma split_with (sep : ascii) (s : string) :
  contains sep s = true -> exists p q qs, split sep s = p :: q :: qs.
Proof.
  induction s as [|a s IH]; simpl; [discriminate |].
  pose proof (split_nonempty sep s) as Hne.
  destruct (Ascii.eqb a sep).
  - intros _. destruct (split sep s) as [|p ps]; [congruence | eauto].
  - intros Hc. destruct (IH Hc) as (p & q & qs & ->). eauto.
Qed.

Lemma last_cons {A} (x d : A) (l : list A) :
  l <> [] -> List.last (x :: l) d = List.last l d.
Proof. destruct l; [congruence | reflexivity]. Qed.

(** With a separator in the string, the last part is what follows the
    last separator. *)
Lemma last_item_split_suffix (sep : ascii) (s : string) :
  contains sep s = true ->
  exists stem, s = stem ++ String sep (last_item (split sep s)).
Proof.
  unfold last_item.
  induction s as [|a s IH]; simpl; [discriminate |].
  destruct (Ascii.eqb_spec a sep) as [->|Hneq].
  - intros _. rewrite (last_cons _ _ _ (split_nonempty sep s)).
    destruct (contains sep s) eqn:Hc.
    + destruct (IH eq_refl) as [stem Hs].
      exists (String sep stem). rewrite append_cons. now rewrite <- Hs.
    + rewrite (split_without _ _ Hc). exists EmptyString. reflexivity.
  - intros Hc. destruct (IH Hc) as [stem Hs].
    destruct (split_with _ _ Hc) as (p & q & qs & Hsp).
    rewrite Hsp in *.
    exists (String a stem). rewrite append_cons.
    rewrite last_cons by discriminate.
    rewrite last_cons in Hs by discriminate. now rewrite <- Hs.
Qed.

(** The part after the last separator, read off a decomposition. *)
Lemma last_item_split_append (sep : ascii) (stem ext : string) :
  contains sep ext = false ->
  last_item (split sep (stem ++ String sep ext)) = ext.
Proof.
  intros Hext. unfold last_item.
  induction stem as [|a stem IH].
  - change ("" ++ String sep ext) with (String sep ext). simpl.
    rewrite Ascii.eqb_refl, (split_without _ _ Hext). reflexivity.
  - rewrite append_cons. simpl.
    assert (contains sep (stem ++ String sep ext) = true) as Hc.
    { rewrite contains_append. simpl.
      rewrite Ascii.eqb_refl. apply orb_true_r. }
    destruct (split_with _ _ Hc) as (p & q & qs & Hsp).
    rewrite Hsp in *.
    destruct (Ascii.eqb a sep); rewrite last_cons by discriminate;
      rewrite last_cons in IH by discriminate; exact IH.
Qed.

Lemma slice_to_length (n : nat) (s : string) :
  String.length (slice_to n s) = Nat.min n (String.length s).
Proof.
  revert s. induction n as [|n IH]; intros [|a s]; simpl; auto.
Qed.

(** [s[:n]] is a prefix of [s]. *)
Lemma slice_to_prefix (n : nat) (s : string) :
  exists rest, s = slice_to n s ++ rest.
Proof.
  revert s. induction n as [|n IH]; intros s.
  - exists s. now destruct s.
  - destruct s as [|a s]; [now exists EmptyString |].
    destruct (IH s) as [rest Hr]. exists rest.
    simpl. rewrite append_cons. now rewrite <- Hr.
Qed.

Lemma replace_length (old new : ascii) (s : string) :
  String.length (replace old new s) = String.length s.
Proof. induction s as [|a s IH]; simpl; [reflexivity | now rewrite IH]. Qed.

(** After [replace] the old character is gone (when it differs from the
    new one). *)
Lemma replace_clean (old new : ascii) (s : string) :
  old <> new -> contains old (replace old new s) = false.
Proof.
  intros Hne. induction s as [|a s IH]; simpl; [reflexivity |].
  destruct (Ascii.eqb_spec a old) as [->|Ha].
  - destruct (Ascii.eqb_spec new old); [congruence | exact IH].
  - destruct (Ascii.eqb_spec a old); [congruence | exact IH].
Qed.

End PyStrFacts.

(** ** Rounding and timestamps *)

Lemma round3_multiple (x : Q) : exists z : Z, round3 x = Qmake z 1000.
Proof. unfold round3. eexists. reflexivity. Qed.

Lemma round3_nearest (x : Q) : (Qabs (x - round3 x) <= 1 # 2000)%Q.
Proof.
  destruct x as [a d]. unfold round3. cbn [Qnum Qden].
  pose proof (Z.div_mod (a * 1000) (Z.pos d) ltac:(lia)) as Hdm.
  pose proof (Z.mod_pos_bound (a * 1000) (Z.pos d) ltac:(lia)) as Hr.
  set (z := (a * 1000 / Z.pos d)%Z) in *.
  set (r := ((a * 1000) mod Z.pos d)%Z) in *.
  apply Qabs_Qle_condition.
  destruct (Z.compare_spec (2 * r) (Z.pos d)) as [He|Hl|Hg];
    [destruct (Z.odd z) |..];
    unfold Qle, Qminus, Qplus, Qopp; cbn [Qnum Qden];
    rewrite ?Pos2Z.inj_mul; split; nia.
Qed.

Lemma digit_value_digit (n : nat) :
  digit_value (PyStr.digit n) = Some (n mod 10)%nat.
Proof.
  unfold digit_value, PyStr.digit.
  pose proof (Nat.mod_upper_bound n 10 ltac:(lia)) as Hlt.
  rewrite nat_ascii_embedding by lia.
  destruct (Nat.leb_spec 48 (48 + n mod 10)); [| lia].
  destruct (Nat.leb_spec (48 + n mod 10) 57); [| lia].
  simpl. f_equal. lia.
Qed.

Lemma number_of_pad2 (n : nat) :
  (n <= 99)%nat -> number_of 0 (PyStr.pad2 n) = Some n.
Proof.
  intros Hn. unfold PyStr.pad2.
  repeat (cbn [number_of]; rewrite digit_value_digit). cbn [number_of].
  f_equal.
  pose proof (Nat.div_mod_eq n 10). 
  pose proof (Nat.mod_upper_bound n 10 ltac:(lia)).
  assert (n / 10 < 10)%nat by (apply Nat.Div0.div_lt_upper_bound; lia).
  rewrite (Nat.mod_small (n / 10) 10) by lia. lia.
Qed.

Lemma number_of_pad4 (n : nat) :
  (Z.of_nat n <= 9999)%Z -> number_of 0 (PyStr.pad4 n) = Some n.
Proof.
  intros Hn. unfold PyStr.pad4, PyStr.pad2.
  repeat (cbn [number_of]; rewrite digit_value_digit). cbn [number_of].
  f_equal.
  replace (n / 100)%nat with (n / 10 / 10)%nat
    by (rewrite Nat.Div0.div_div; reflexivity).
  replace (n / 1000)%nat with (n / 10 / 10 / 10)%nat
    by (rewrite !Nat.Div0.div_div; reflexivity).
  pose proof (Nat.div_mod_eq n 10) as H0.
  pose proof (Nat.div_mod_eq (n / 10) 10) as H1.
  pose proof (Nat.div_mod_eq (n / 10 / 10) 10) as H2.
  pose proof (Nat.mod_upper_bound n 10 ltac:(lia)).
  pose proof (Nat.mod_upper_bound (n / 10) 10 ltac:(lia)).
  pose proof (Nat.mod_upper_bound (n / 10 / 10) 10 ltac:(lia)).
  assert (n / 10 / 10 / 10 < 10)%nat as Hc.
  { apply Nat.Div0.div_lt_upper_bound. apply Nat.Div0.div_lt_upper_bound.
    apply Nat.Div0.div_lt_upper_bound. lia. }
  rewrite (Nat.mod_small (n / 10 / 10 / 10) 10) by exact Hc. lia.
Qed.

Lemma strftime_chars (t : datetime) :
  strftime t
  = PyStr.pad4 (year t) ++ PyStr.pad2 (month t) ++ PyStr.pad2 (day t)
    ++ "_" ++ PyStr.pad2 (hour t) ++ PyStr.pad2 (minute t)
    ++ PyStr.pad2 (second t).
Proof. reflexivity. Qed.

Lemma strftime_length (t : datetime) : String.length (strftime t) = 15%nat.
Proof. reflexivity. Qed.

Lemma parse_strftime (t : datetime) :
  four_digit_year t -> parse_timestamp (strftime t) = Some t.
Proof.
  intros ((Hy1 & Hy2) & Hmo & Hd & Hh & Hmi & Hs).
  destruct t as [y mo d h mi s]. cbn [year month day hour minute second] in *.
  unfold parse_timestamp.
  change (String.length (strftime _)) with 15%nat. cbn [Nat.eqb negb].
  change (substring 8 1 (strftime {| year := y; month := mo; day := d; hour := h; minute := mi; second := s |})) with "_".
  cbn [String.eqb Ascii.eqb Bool.eqb negb].
  change (substring 0 4 (strftime _)) with (PyStr.pad4 y).
  change (substring 4 2 (strftime _)) with (PyStr.pad2 mo).
  change (substring 6 2 (strftime _)) with (PyStr.pad2 d).
  change (substring 9 2 (strftime _)) with (PyStr.pad2 h).
  change (substring 11 2 (strftime _)) with (PyStr.pad2 mi).
  change (substring 13 2 (strftime _)) with (PyStr.pad2 s).
  rewrite number_of_pad4 by lia.
  rewrite !number_of_pad2 by lia. reflexivity.
Qed.

(** ** The handlers never raise *)

Lemma marker_test (event : gmap string value) :
  dict_has event "source" && eq_str (dict_get event "source") "eventbridge"
  = has_marker event.
Proof.
  unfold dict_has, dict_get, has_marker.
  destruct (event !! "source") as [v|] eqn:E.
  - rewrite bool_decide_eq_true_2 by eauto. reflexivity.
  - rewrite bool_decide_eq_false_2; [reflexivity |]. intros [? ?]; discriminate.
Qed.

Lemma has_marker_spec (event : gmap string value) :
  has_marker event = true <-> event !! "source" = Some (VStr "eventbridge").
Proof.
  unfold has_marker. split.
  - destruct (event !! "source") as [[]|]; try discriminate.
    intros H%String.eqb_eq. now subst.
  - intros ->. reflexivity.
Qed.

Lemma handle_prompt_analysis_returns W event ctx t0 tr :
  exists env tr', handle_prompt_analysis W event ctx t0 tr = (Ok env, tr').
Proof. run_handler. repeat case_match; simplify_eq; eauto. Qed.

Lemma handle_s3_event_returns W event ctx t0 tr :
  exists env tr', handle_s3_event W event ctx t0 tr = (Ok env, tr').
Proof. run_handler. repeat case_match; simplify_eq; eauto. Qed.

Lemma handler_returns W event ctx tr :
  exists env tr', handler W event ctx tr = (Ok env, tr').
Proof.
  unfold handler, bind, time_time, external, try_except, try_else.
  rewrite marker_test.
  destruct (has_marker event).
  - destruct (handle_s3_event_returns W event ctx (clock W (List.length tr)) (tr ++ [TimeTime])) as (env & tr' & ->). eauto.
  - destruct (dict_has event "prompt").
    + destruct (handle_prompt_analysis_returns W event ctx (clock W (List.length tr)) (tr ++ [TimeTime])) as (env & tr' & ->). eauto.
    + run_handler. eauto.
Qed.

(** ** The successful event-sourced run *)

Lemma truthy_nonempty (s : string) : s <> "" -> truthy (VStr s) = true.
Proof. intros H. simpl. destruct (String.eqb_spec s ""); [contradiction | reflexivity]. Qed.

Section SuccessfulAnalysis.

Context (W : world) (event : gmap string value) (ctx : option lambda_context).
Context (b k content : string) (size : Z) (text : string).
Hypothesis Hok : analysis_succeeds W event b k content size text.

(** The whole run: the calls up to the analysis, the calendar read, the
    write when there is an output bucket, the last clock read; and the
    fields of the success envelope. *)
Lemma successful_run :
  exists env,
    invoke W event ctx
    = (Ok env,
       (analysis_calls b k content size
        ++ DatetimeNow
           :: (if truthy (dict_get event "outputBucket")
               then [PutObject
                       (write_request (request_id_of ctx) b k
                          (dict_get event "outputBucket")
                          (strftime (calendar W 5)) text)]
               else [])
        ++ [TimeTime])%list)
    /\ env !! "status" = Some (VStr "success")
    /\ env !! "request_id" = Some (VStr (request_id_of ctx))
    /\ env !! "input"
       = Some (VDict (dict [("bucket", VStr b); ("key", VStr k);
                            ("file_size", VInt size);
                            ("file_type", VStr (file_extension_of k))]))
    /\ env !! "output"
       = Some (VDict (dict [("bucket", dict_get event "outputBucket");
                            ("key",
                             if truthy (dict_get event "outputBucket")
                             then VStr (output_key_of k
                                          (strftime (calendar W 5)))
                             else VNone);
                            ("analysis_length", len text)]))
    /\ env !! "processing_time_seconds"
       = Some (VFloat
                 (round3 (clock W (if truthy (dict_get event "outputBucket")
                                   then 7 else 6)%nat
                          - clock W 0)))
    /\ env !! "analysis_preview" = Some (VStr (analysis_preview_of text)).
Proof.
  destruct Hok as [Hm Hb Hbne Hk Hkne Hc Hg Ha Hr].
  unfold invoke, handler, bind, time_time, external, try_except, try_else.
  rewrite marker_test, Hm.
  assert (dict_get event "bucket" = VStr b) as Eb
    by (unfold dict_get; now rewrite Hb).
  assert (dict_get event "key" = VStr k) as Ek
    by (unfold dict_get; now rewrite Hk).
  run_handler. rewrite !Eb, !Ek.
  rewrite (truthy_nonempty b Hbne), (truthy_nonempty k Hkne).
  change (negb true || negb true) with false. cbv beta iota.
  unfold prompt_for in Hr. rewrite Hc, Hg. cbv beta iota. rewrite Ha, Hr.
  destruct (truthy (dict_get event "outputBucket"));
    [destruct (s3_put W _) |];
    (eexists; split; [reflexivity |]; repeat split; reflexivity).
Qed.

End SuccessfulAnalysis.

(** The sample file request succeeds in every world that reads and analyses
    like [Sample.all_well]. *)
Lemma sample_analysis_succeeds (W : world) :
  s3_client W = Ok tt ->
  s3_get W = s3_get Sample.all_well ->
  agent_new W = (fun _ => Ok tt) ->
  agent_run W = agent_run Sample.all_well ->
  analysis_succeeds W Sample.file_event
    "src" "app.py" "print(1)" 8 "Looks fine.".
Proof.
  intros Hc Hg Hn Hr.
  split; rewrite ?Hc, ?Hg, ?Hn, ?Hr; try reflexivity; discriminate.
Defined.

(** ** Two runs from end to end *)

(** [{"prompt": "review this snippet"}]: the agent's answer comes back in
    full with the prompt echoed, and the object store is not called. *)
Example direct_prompt_run :
  invoke Sample.all_well Sample.prompt_event Sample.context
  = (Ok (dict [("status", VStr "success");
               ("message", VStr "Code analysis completed");
               ("request_id", VStr "req-1");
               ("analysis", VStr "Looks fine.");
               ("processing_time_seconds", VFloat (375 # 1000));
               ("input_prompt", VStr "review this snippet")]),
     [TimeTime; NewAgent; AgentCall (VStr "review this snippet"); TimeTime]).
Proof. vm_compute. reflexivity. Qed.

(** The file ["app.py"] of bucket ["src"], analysed and written to bucket
    ["out"]. *)
Example file_analysis_run :
  exists env,
    invoke Sample.all_well Sample.file_event Sample.context
    = (Ok env,
       [TimeTime; Boto3Client; GetObject (VStr "src") (VStr "app.py");
        NewAgent; AgentCall (prompt_for "app.py" 8 "print(1)"); DatetimeNow;
        PutObject (write_request "req-1" "src" "app.py" (VStr "out")
                     "20240307_120009" "Looks fine.");
        TimeTime])
    /\ env !! "status" = Some (VStr "success")
    /\ env !! "analysis_preview" = Some (VStr "Looks fine.")
    /\ env !! "output"
       = Some (VDict
                 (dict [("bucket", VStr "out");
                        ("key",
                         VStr "analysis/app.py_20240307_120009_analysis.md");
                        ("analysis_length", VInt 11)])).
Proof.
  destruct (successful_run Sample.all_well Sample.file_event Sample.context
              "src" "app.py" "print(1)" 8 "Looks fine."
              (sample_analysis_succeeds Sample.all_well
                 eq_refl eq_refl eq_refl eq_refl))
    as (env & Hrun & Hstatus & _ & _ & Houtput & _ & Hpreview).
  exists env. repeat split; assumption.
Qed.

(** ** Properties of the request/response contract *)

(** *** Which envelopes carry the request id *)

(** Every envelope carries [request_id], except the two that
    [handle_s3_event] returns from inside its [try] block: the validation
    failure and the read failure. *)
Lemma request_id_or_early_return W event ctx env calls :
  invoke W event ctx = (Ok env, calls) ->
  env !! "request_id" = Some (VStr (request_id_of ctx))
  \/ (env !! "request_id" = None
      /\ has_marker event = true
      /\ env !! "status" = Some (VStr "error")
      /\ (calls = [TimeTime]
          \/ exists bucket key,
               calls = [TimeTime; Boto3Client; GetObject bucket key])).
Proof.
  unfold invoke, handler, bind, time_time, external, try_except, try_else.
  rewrite marker_test. destruct (has_marker event) eqn:Hm.
  - run_handler. repeat case_match; intros Hrun; simplify_eq;
      first [ left; reflexivity
            | right; repeat split; first [reflexivity | left; reflexivity
                                         | right; eauto ] ].
  - run_handler. repeat case_match; intros Hrun; simplify_eq; left; reflexivity.
Qed.

(** C1: the dispatcher never raises, and every envelope carries the request
    id. The first half holds ([handler_returns]). The second half fails on
    the validation failure of the event-sourced path: for the request
    [{"source": "eventbridge"}] the envelope has a status and a message and
    no [request_id], whatever the collaborators and the context. *)
Theorem C1_validation_error_without_request_id
    (W : world) (ctx : option lambda_context) :
  let env :=
    dict [("status", VStr "error");
          ("message",
           VStr "Missing bucket name or object key in S3 event")] in
  invoke W Sample.bare_event ctx = (Ok env, [TimeTime])
  /\ env !! "request_id" = None.
Proof. split; reflexivity. Qed.

(** C2, as stated, fails: the request [{"prompt": ""}] has no event-source
    marker and no non-empty prompt, yet it is sent to the agent, and when
    the agent fails the envelope is an error without a version tag. *)
Lemma C2_empty_prompt_is_analysed :
  has_marker Sample.empty_prompt_event = false
  /\ missing_or_empty Sample.empty_prompt_event "prompt"
  /\ invoke Sample.agent_down Sample.empty_prompt_event Sample.context
     = (Ok (dict [("status", VStr "error");
                  ("message", VStr "Analysis failed: ThrottlingException");
                  ("request_id", VStr "req-1")]),
        [TimeTime; NewAgent; AgentCall (VStr "")]).
Proof. repeat split; vm_compute; reflexivity. Qed.

(** C2, amended: the routing is in fixed priority order, first match
    winning. A request whose [source] equals ["eventbridge"] takes the
    event-sourced path; otherwise a request that has a [prompt] field,
    whatever its value, takes the direct-prompt path; a request with neither
    gets the static envelope with status ["success"] and the version tag
    ["1.0.0-strands"], after two clock reads and no other call. *)
Theorem C2_routing
    (W : world) (event : gmap string value) (ctx : option lambda_context) :
  (has_marker event = true ->
   invoke W event ctx = handle_s3_event W event ctx (clock W 0) [TimeTime])
  /\ (has_marker event = false -> is_Some (event !! "prompt") ->
      invoke W event ctx
      = handle_prompt_analysis W event ctx (clock W 0) [TimeTime])
  /\ (has_marker event = false -> event !! "prompt" = None ->
      invoke W event ctx
      = (Ok (default_envelope (request_id_of ctx) (clock W 1 - clock W 0)),
         [TimeTime; TimeTime]))
  /\ (forall rid t,
        default_envelope rid t !! "status" = Some (VStr "success")
        /\ default_envelope rid t !! "version" = Some (VStr "1.0.0-strands")).
Proof.
  unfold invoke, handler, bind, time_time, external, try_except, try_else.
  rewrite marker_test.
  split; [| split; [| split]].
  - intros ->.
    destruct (handle_s3_event_returns W event ctx (clock W 0) [TimeTime])
      as (env & tr' & E).
    simpl. now rewrite E.
  - intros -> Hp. unfold dict_has. rewrite bool_decide_eq_true_2 by exact Hp.
    destruct (handle_prompt_analysis_returns W event ctx (clock W 0) [TimeTime])
      as (env & tr' & E).
    simpl. now rewrite E.
  - intros -> Hp. unfold dict_has.
    rewrite bool_decide_eq_false_2
      by (rewrite Hp; intros [? ?]; discriminate).
    reflexivity.
  - intros rid t. split; reflexivity.
Qed.

Lemma C2_routing_witness :
  invoke Sample.all_well Sample.empty_event Sample.context
  = (Ok (default_envelope "req-1"
           (clock Sample.all_well 1 - clock Sample.all_well 0)),
     [TimeTime; TimeTime])
  /\ invoke Sample.agent_down Sample.empty_prompt_event Sample.context
     = handle_prompt_analysis Sample.agent_down Sample.empty_prompt_event
         Sample.context (clock Sample.agent_down 0) [TimeTime].
Proof.
  split.
  - apply (C2_routing Sample.all_well Sample.empty_event Sample.context);
      reflexivity.
  - apply (C2_routing Sample.agent_down Sample.empty_prompt_event
             Sample.context); [reflexivity | eexists; reflexivity].
Defined.

(** C3: an event-sourced request whose [bucket] or [key] is missing or empty
    gets an error envelope, and the invocation makes no call to the object
    store: its only call is the first clock read. *)
Theorem C3_no_store_call_without_bucket_and_key
    (W : world) (event : gmap string value) (ctx : option lambda_context) :
  has_marker event = true ->
  missing_or_empty event "bucket" \/ missing_or_empty event "key" ->
  exists env calls,
    invoke W event ctx = (Ok env, calls)
    /\ env !! "status" = Some (VStr "error")
    /\ store_calls calls = []
    /\ calls = [TimeTime].
Proof.
  unfold missing_or_empty. intros Hm Hmiss.
  unfold invoke, handler, bind, time_time, external, try_except, try_else.
  rewrite marker_test, Hm. run_handler.
  assert (negb (truthy (dict_get event "bucket"))
          || negb (truthy (dict_get event "key")) = true) as ->.
  { destruct Hmiss as [-> | ->]; [reflexivity | apply orb_true_r]. }
  eexists _, _. split; [reflexivity |]. repeat split; reflexivity.
Qed.

Lemma C3_witness :
  exists env calls,
    invoke Sample.all_well Sample.keyless_event Sample.context
    = (Ok env, calls)
    /\ env !! "status" = Some (VStr "error")
    /\ store_calls calls = []
    /\ calls = [TimeTime].
Proof.
  apply C3_no_store_call_without_bucket_and_key;
    [reflexivity | right; reflexivity].
Defined.

(** C4: in an event-sourced invocation the write comes strictly after a
    successful analysis call. When no analysis call of the invocation
    succeeded (the call failed, or an earlier step failed and the call was
    never made), no write is attempted and the envelope is an error; and a
    write that is in the trace is preceded by an analysis call whose answer
    is the body written. *)
Theorem C4_write_only_after_analysis
    (W : world) (event : gmap string value) (ctx : option lambda_context)
    (env : gmap string value) (calls : list call) :
  has_marker event = true ->
  invoke W event ctx = (Ok env, calls) ->
  ((forall p, In (AgentCall p) calls ->
      exists e, agent_run W CODE_ANALYSIS_SYSTEM_PROMPT p = Raise e) ->
   writes calls = [] /\ env !! "status" = Some (VStr "error"))
  /\ (forall pre r post,
        calls = (pre ++ PutObject r :: post)%list ->
        exists p, In (AgentCall p) pre
          /\ agent_run W CODE_ANALYSIS_SYSTEM_PROMPT p = Ok (Body r)).
Proof.
  intros Hm.
  unfold invoke, handler, bind, time_time, external, try_except, try_else.
  rewrite marker_test, Hm. run_handler.
  repeat case_match; intros Hrun; simplify_eq; simpl; split.
  all: try (intros _; split; reflexivity).
  all: try (intros pre r post Hcalls;
            repeat (destruct pre as [|? pre]; simplify_eq/=); fail).
  all: try (intros Hfail; exfalso;
            edestruct Hfail as [? Hraised];
            [do 4 right; left; reflexivity | congruence]).
  all: intros pre r post Hcalls;
    repeat (destruct pre as [|? pre]; simplify_eq/=);
    eexists; split; [do 4 right; left; reflexivity | assumption].
Qed.

Lemma C4_witness :
  let env :=
    dict [("status", VStr "error");
          ("message", VStr "S3 analysis failed: ThrottlingException");
          ("request_id", VStr "req-1")] in
  let calls := analysis_calls "src" "app.py" "print(1)" 8 in
  invoke Sample.agent_down Sample.file_event Sample.context = (Ok env, calls)
  /\ writes calls = [] /\ env !! "status" = Some (VStr "error").
Proof.
  intros env calls.
  assert (invoke Sample.agent_down Sample.file_event Sample.context
          = (Ok env, calls)) as Hrun by (vm_compute; reflexivity).
  split; [exact Hrun |].
  apply (C4_write_only_after_analysis Sample.agent_down Sample.file_event
           Sample.context env calls eq_refl Hrun).
  intros p _. eexists. reflexivity.
Defined.

(** C5: when the read and the analysis succeed and the write to the output
    bucket fails, the envelope is still a success and carries the length of
    the whole analysis and its preview; the failed write is the only write
    attempted. *)
Theorem C5_write_failure_keeps_success
    (W : world) (event : gmap string value) (ctx : option lambda_context)
    (b k content : string) (size : Z) (text : string) (e : exn) :
  analysis_succeeds W event b k content size text ->
  truthy (dict_get event "outputBucket") = true ->
  s3_put W (write_request (request_id_of ctx) b k
              (dict_get event "outputBucket") (strftime (calendar W 5)) text)
  = Raise e ->
  exists env calls out,
    invoke W event ctx = (Ok env, calls)
    /\ writes calls
       = [PutObject (write_request (request_id_of ctx) b k
                       (dict_get event "outputBucket")
                       (strftime (calendar W 5)) text)]
    /\ env !! "status" = Some (VStr "success")
    /\ env !! "output" = Some (VDict out)
    /\ out !! "analysis_length" = Some (VInt (Z.of_nat (String.length text)))
    /\ env !! "analysis_preview" = Some (VStr (analysis_preview_of text)).
Proof.
  intros Hok Hout _.
  destruct (successful_run W event ctx b k content size text Hok)
    as (env & Hrun & Hstatus & _ & _ & Houtput & _ & Hpreview).
  rewrite Hout in Hrun, Houtput.
  eexists env, _, _. split; [exact Hrun |].
  split; [reflexivity |]. split; [exact Hstatus |].
  split; [exact Houtput |]. split; [reflexivity | exact Hpreview].
Qed.

Lemma C5_witness :
  exists env calls out,
    invoke Sample.write_refused Sample.file_event Sample.context
    = (Ok env, calls)
    /\ writes calls
       = [PutObject (write_request "req-1" "src" "app.py" (VStr "out")
                       "20240307_120009" "Looks fine.")]
    /\ env !! "status" = Some (VStr "success")
    /\ env !! "output" = Some (VDict out)
    /\ out !! "analysis_length" = Some (VInt 11)
    /\ env !! "analysis_preview" = Some (VStr "Looks fine.").
Proof.
  apply (C5_write_failure_keeps_success Sample.write_refused
           Sample.file_event Sample.context
           "src" "app.py" "print(1)" 8 "Looks fine." "AccessDenied").
  - apply sample_analysis_succeeds; reflexivity.
  - reflexivity.
  - reflexivity.
Defined.


(** C6: the file type is the lowercased part of the key after its last
    ['.'], and ["unknown"] for a key without ['.']. A key with a ['.'] does
    split as [stem ++ "." ++ ext] with no ['.'] in [ext], and for every such
    split the file type is [ext] lowercased. *)
Theorem C6_file_type (key : string) :
  (PyStr.contains "." key = false -> file_extension_of key = "unknown")
  /\ (PyStr.contains "." key = true ->
      exists stem ext,
        key = stem ++ "." ++ ext /\ PyStr.contains "." ext = false)
  /\ (forall stem ext,
        key = stem ++ "." ++ ext -> PyStr.contains "." ext = false ->
        file_extension_of key = PyStr.lower ext).
Proof.
  unfold file_extension_of. split; [| split].
  - intros ->. reflexivity.
  - intros Hc. destruct (PyStrFacts.last_item_split_suffix _ _ Hc) as [stem Hs].
    exists stem, (PyStr.last_item (PyStr.split "." key)).
    split; [exact Hs | apply PyStrFacts.last_item_split_clean].
  - intros stem ext -> Hext.
    change ("." ++ ext) with (String "." ext).
    rewrite PyStrFacts.contains_append. simpl PyStr.contains at 2.
    rewrite orb_true_r, PyStrFacts.last_item_split_append by exact Hext. reflexivity.
Qed.

Lemma C6_witness :
  file_extension_of "README" = "unknown"
  /\ file_extension_of "app.py" = "py"
  /\ file_extension_of "src/v1.2/Main.PY" = "py".
Proof.
  split; [| split].
  - apply (C6_file_type "README"). reflexivity.
  - apply (proj2 (proj2 (C6_file_type "app.py")) "app" "py"); reflexivity.
  - apply (proj2 (proj2 (C6_file_type "src/v1.2/Main.PY")) "src/v1.2/Main" "PY");
      reflexivity.
Defined.

(** The preview expression: a text of at most 500 characters is its own
    preview; a longer one is previewed by its first 500 characters followed
    by ["..."], 503 characters in all. *)
Lemma analysis_preview_of_cases (t : string) :
  ((String.length t <= 500)%nat -> analysis_preview_of t = t)
  /\ ((500 < String.length t)%nat ->
      analysis_preview_of t = PyStr.slice_to 500 t ++ "..."
      /\ String.length (PyStr.slice_to 500 t) = 500%nat
      /\ (exists rest, t = PyStr.slice_to 500 t ++ rest)
      /\ String.length (analysis_preview_of t) = 503%nat).
Proof.
  unfold analysis_preview_of.
  destruct (Nat.ltb_spec 500 (String.length t)) as [Hlong|Hshort].
  - split; [lia |]. intros _.
    pose proof (PyStrFacts.slice_to_length 500 t) as Hlen.
    rewrite Nat.min_l in Hlen by lia.
    split; [reflexivity |]. split; [exact Hlen |].
    split; [apply PyStrFacts.slice_to_prefix |].
    rewrite PyStrFacts.length_append, Hlen. reflexivity.
  - split; [reflexivity | lia].
Qed.

(** C7: for every analysis text [t] that a successful event-sourced
    invocation obtains, the [analysis_preview] of the returned envelope is
    [t] itself when [t] has at most 500 characters, and otherwise the first
    500 characters of [t] followed by ["..."], 503 characters in all. *)
Theorem C7_envelope_preview
    (W : world) (event : gmap string value) (ctx : option lambda_context)
    (b k content : string) (size : Z) (t : string) :
  analysis_succeeds W event b k content size t ->
  exists env calls preview,
    invoke W event ctx = (Ok env, calls)
    /\ env !! "analysis_preview" = Some (VStr preview)
    /\ ((String.length t <= 500)%nat -> preview = t)
    /\ ((500 < String.length t)%nat ->
        preview = PyStr.slice_to 500 t ++ "..."
        /\ String.length (PyStr.slice_to 500 t) = 500%nat
        /\ (exists rest, t = PyStr.slice_to 500 t ++ rest)
        /\ String.length preview = 503%nat).
Proof.
  intros Hok.
  destruct (successful_run W event ctx b k content size t Hok)
    as (env & Hrun & _ & _ & _ & _ & _ & Hpreview).
  destruct (analysis_preview_of_cases t) as [Hshort Hlong].
  exists env. eexists. exists (analysis_preview_of t).
  split; [exact Hrun |]. split; [exact Hpreview |].
  split; [exact Hshort | exact Hlong].
Qed.

(** The sample file request succeeds with the long answer of
    [Scenario.verbose_agent]. *)
Lemma verbose_analysis_succeeds :
  analysis_succeeds Scenario.verbose_agent Sample.file_event
    "src" "app.py" "print(1)" 8 Sample.long_text.
Proof. split; try reflexivity; discriminate. Defined.

Lemma C7_witness :
  (exists env calls,
     invoke Sample.all_well Sample.file_event Sample.context = (Ok env, calls)
     /\ env !! "analysis_preview" = Some (VStr "Looks fine."))
  /\ (exists env calls preview,
        invoke Scenario.verbose_agent Sample.file_event Sample.context
        = (Ok env, calls)
        /\ env !! "analysis_preview" = Some (VStr preview)
        /\ preview = PyStr.slice_to 500 Sample.long_text ++ "..."
        /\ String.length preview = 503%nat).
Proof.
  split.
  - destruct (C7_envelope_preview Sample.all_well Sample.file_event
                Sample.context "src" "app.py" "print(1)" 8 "Looks fine."
                (sample_analysis_succeeds Sample.all_well
                   eq_refl eq_refl eq_refl eq_refl))
      as (env & calls & preview & Hrun & Hp & Hshort & _).
    exists env, calls. split; [exact Hrun |].
    rewrite Hp, (Hshort ltac:(apply Nat.leb_le; reflexivity)). reflexivity.
  - destruct (C7_envelope_preview Scenario.verbose_agent Sample.file_event
                Sample.context "src" "app.py" "print(1)" 8 Sample.long_text
                verbose_analysis_succeeds)
      as (env & calls & preview & Hrun & Hp & _ & Hlong).
    destruct (Hlong ltac:(apply Nat.ltb_lt; reflexivity))
      as (Heq & _ & _ & Hlen).
    exists env, calls, preview. repeat split; assumption.
Defined.

(** C8: after a successful analysis the output key is ["analysis/"], the
    source key with every ['/'] replaced by ['_'], ['_'], the timestamp and
    ["_analysis.md"]; the timestamp reads back as the calendar time in the
    shape YYYYMMDD_HHMMSS. With an output bucket, exactly one write is made,
    to that key, with the analysis as body, and its metadata has exactly the
    keys [source-bucket], [source-key], [analysis-timestamp], [file-type]
    and [request-id], holding the source bucket, the source key, the
    timestamp, the derived file type and the request id; the envelope
    reports the same key. Without an output bucket nothing is written and
    the envelope reports no key. *)
Theorem C8_output_key_and_metadata
    (W : world) (event : gmap string value) (ctx : option lambda_context)
    (b k content : string) (size : Z) (text : string) :
  analysis_succeeds W event b k content size text ->
  exists env calls out timestamp output_key r,
    invoke W event ctx = (Ok env, calls)
    /\ timestamp = strftime (calendar W 5)
    /\ String.length timestamp = 15%nat
    /\ (four_digit_year (calendar W 5) ->
        parse_timestamp timestamp = Some (calendar W 5))
    /\ output_key
       = "analysis/" ++ PyStr.replace "/" "_" k ++ "_" ++ timestamp
         ++ "_analysis.md"
    /\ PyStr.contains "/" (PyStr.replace "/" "_" k) = false
    /\ env !! "output" = Some (VDict out)
    /\ Key r = output_key
    /\ Body r = text
    /\ Bucket r = dict_get event "outputBucket"
    /\ dom (Metadata r)
       = {["source-bucket"; "source-key"; "analysis-timestamp";
           "file-type"; "request-id"]}
    /\ Metadata r !! "source-bucket" = Some b
    /\ Metadata r !! "source-key" = Some k
    /\ Metadata r !! "analysis-timestamp" = Some timestamp
    /\ Metadata r !! "file-type" = Some (file_extension_of k)
    /\ Metadata r !! "request-id" = Some (request_id_of ctx)
    /\ (if truthy (dict_get event "outputBucket")
        then writes calls = [PutObject r]
             /\ out !! "key" = Some (VStr output_key)
        else writes calls = [] /\ out !! "key" = Some VNone).
Proof.
  intros Hok.
  destruct (successful_run W event ctx b k content size text Hok)
    as (env & Hrun & _ & _ & _ & Houtput & _).
  exists env. eexists. eexists. exists (strftime (calendar W 5)).
  eexists.
  exists (write_request (request_id_of ctx) b k
            (dict_get event "outputBucket") (strftime (calendar W 5)) text).
  split; [exact Hrun |]. split; [reflexivity |].
  split; [apply strftime_length |]. split; [apply parse_strftime |].
  split; [reflexivity |].
  split; [apply PyStrFacts.replace_clean; discriminate |].
  split; [exact Houtput |].
  do 3 (split; [reflexivity |]).
  split.
  { unfold write_request, dict. cbn [Metadata fold_left fst snd].
    rewrite !dom_insert_L, dom_empty_L. set_solver. }
  do 5 (split; [reflexivity |]).
  destruct (truthy (dict_get event "outputBucket")); split; reflexivity.
Qed.

Lemma C8_witness :
  exists env calls out r,
    invoke Sample.all_well Sample.file_event Sample.context = (Ok env, calls)
    /\ writes calls = [PutObject r]
    /\ Key r = "analysis/app.py_20240307_120009_analysis.md"
    /\ out !! "key"
       = Some (VStr "analysis/app.py_20240307_120009_analysis.md")
    /\ env !! "output" = Some (VDict out)
    /\ Metadata r !! "file-type" = Some "py".
Proof.
  destruct (C8_output_key_and_metadata Sample.all_well Sample.file_event
              Sample.context "src" "app.py" "print(1)" 8 "Looks fine."
              (sample_analysis_succeeds Sample.all_well
                 eq_refl eq_refl eq_refl eq_refl))
    as (env & calls & out & ts & okey & r & Hrun & -> & _ & _ & -> & _
        & Hout & HK & _ & _ & _ & _ & _ & _ & Hft & _ & Hw & Hk).
  exists env, calls, out, r. repeat split; assumption.
Defined.

(** C9, as stated, fails: an error envelope carries no processing time. On
    the direct-prompt path with a failing agent the envelope has a status, a
    message and a request id only. *)
Lemma C9_error_envelope_has_no_processing_time :
  let env :=
    dict [("status", VStr "error");
          ("message", VStr "Analysis failed: ThrottlingException");
          ("request_id", VStr "req-1")] in
  invoke Sample.agent_down Sample.prompt_event Sample.context
  = (Ok env,
     [TimeTime; NewAgent; AgentCall (VStr "review this snippet")])
  /\ env !! "processing_time_seconds" = None.
Proof. split; vm_compute; reflexivity. Qed.

(** C9, amended: every success envelope, on the default, direct-prompt and
    event-sourced paths, carries [processing_time_seconds]: the time between
    the clock read at entry and the clock read that ends the invocation,
    rounded to a multiple of 1/1000 s at most 1/2000 s away. Every other
    envelope is an error envelope and carries no processing time. *)
Theorem C9_processing_time
    (W : world) (event : gmap string value) (ctx : option lambda_context)
    (env : gmap string value) (calls : list call) :
  invoke W event ctx = (Ok env, calls) ->
  let elapsed := (clock W (List.length calls - 1) - clock W 0)%Q in
  (env !! "status" = Some (VStr "success")
   /\ List.last calls Boto3Client = TimeTime
   /\ env !! "processing_time_seconds" = Some (VFloat (round3 elapsed))
   /\ (exists z : Z, round3 elapsed = Qmake z 1000)
   /\ (Qabs (elapsed - round3 elapsed) <= 1 # 2000)%Q)
  \/ (env !! "status" = Some (VStr "error")
      /\ env !! "processing_time_seconds" = None).
Proof.
  unfold invoke, handler, bind, time_time, external, try_except, try_else.
  rewrite marker_test. run_handler.
  repeat case_match; intros Hrun; simplify_eq;
    first [ right; split; reflexivity
          | left; split; [reflexivity |]; split; [reflexivity |];
            split; [reflexivity |];
            split; [apply round3_multiple | apply round3_nearest] ].
Qed.

Lemma C9_witness :
  let env := default_envelope "req-1" (1 # 8) in
  invoke Sample.all_well Sample.empty_event Sample.context
  = (Ok env, [TimeTime; TimeTime])
  /\ env !! "processing_time_seconds" = Some (VFloat (125 # 1000)).
Proof.
  intros env.
  assert (invoke Sample.all_well Sample.empty_event Sample.context
          = (Ok env, [TimeTime; TimeTime])) as Hrun
    by (vm_compute; reflexivity).
  split; [exact Hrun |].
  destruct (C9_processing_time Sample.all_well Sample.empty_event
              Sample.context env [TimeTime; TimeTime] Hrun)
    as [(_ & _ & Ht & _) | (Hs & _)]; [exact Ht | discriminate Hs].
Defined.

(** With no context, a request id that an envelope carries is ["unknown"]. *)
Lemma null_context_request_id W event env calls :
  invoke W event None = (Ok env, calls) ->
  env !! "request_id" = Some (VStr "unknown") \/ env !! "request_id" = None.
Proof.
  intros Hrun.
  destruct (request_id_or_early_return W event None env calls Hrun)
    as [H | (H & _)]; [left; exact H | right; exact H].
Qed.

(** C10: with no context every handler uses ["unknown"] as the request id
    ([null_context_request_id]), but [handle_s3_event] does not put it in
    the envelope of a validation failure: for the request
    [{"source": "eventbridge", "bucket": "src"}] and no context, the
    envelope carries no request id at all. *)
Theorem C10_null_context_validation_error (W : world) :
  let env :=
    dict [("status", VStr "error");
          ("message",
           VStr "Missing bucket name or object key in S3 event")] in
  request_id_of None = "unknown"
  /\ invoke W Sample.keyless_event None = (Ok env, [TimeTime])
  /\ env !! "request_id" = None.
Proof. repeat split; reflexivity. Qed.

(** ** Further properties of the handlers *)

(** *** Strings, keys and timestamps *)

Lemma append_inv_tail (s1 s2 r : string) : s1 ++ r = s2 ++ r -> s1 = s2.
Proof.
  intros H.
  assert (String.length s1 = String.length s2) as Hlen.
  { apply (f_equal String.length) in H.
    rewrite !PyStrFacts.length_append in H. lia. }
  revert s2 H Hlen. induction s1 as [|a s1 IH]; intros [|b s2] H Hlen;
    try discriminate; [reflexivity |].
  rewrite !PyStrFacts.append_cons in H. injection H as -> H.
  f_equal. apply IH; [exact H | simpl in Hlen; lia].
Qed.

Lemma append_inv_head (p s1 s2 : string) : p ++ s1 = p ++ s2 -> s1 = s2.
Proof.
  induction p as [|a p IH]; [trivial |].
  rewrite !PyStrFacts.append_cons. intros H. injection H as H. auto.
Qed.

Lemma lower_char_idempotent (a : ascii) :
  PyStr.lower_char (PyStr.lower_char a) = PyStr.lower_char a.
Proof. destruct a as [[] [] [] [] [] [] [] []]; reflexivity. Qed.

Lemma lower_char_dot (a : ascii) :
  Ascii.eqb (PyStr.lower_char a) "." = Ascii.eqb a ".".
Proof. destruct a as [[] [] [] [] [] [] [] []]; reflexivity. Qed.

Lemma lower_idempotent (s : string) : PyStr.lower (PyStr.lower s) = PyStr.lower s.
Proof.
  induction s as [|a s IH]; simpl; [reflexivity |].
  now rewrite lower_char_idempotent, IH.
Qed.

Lemma contains_dot_lower (s : string) :
  PyStr.contains "." (PyStr.lower s) = PyStr.contains "." s.
Proof.
  induction s as [|a s IH]; simpl; [reflexivity |].
  now rewrite lower_char_dot, IH.
Qed.

Lemma lower_empty (s : string) : PyStr.lower s = "" -> s = "".
Proof. destruct s; [reflexivity | discriminate]. Qed.

Lemma replace_idempotent (old new : ascii) (s : string) :
  old <> new ->
  PyStr.replace old new (PyStr.replace old new s) = PyStr.replace old new s.
Proof.
  intros Hne. induction s as [|a s IH]; simpl; [reflexivity |].
  rewrite IH. f_equal.
  destruct (Ascii.eqb_spec a old) as [->|Ha].
  - destruct (Ascii.eqb_spec new old); congruence.
  - destruct (Ascii.eqb_spec a old); congruence.
Qed.

Lemma digit_not_slash (n : nat) : Ascii.eqb (PyStr.digit n) "/" = false.
Proof.
  apply Ascii.eqb_neq. intros H.
  apply (f_equal nat_of_ascii) in H. unfold PyStr.digit in H.
  pose proof (Nat.mod_upper_bound n 10 ltac:(lia)).
  rewrite nat_ascii_embedding in H by lia.
  change (nat_of_ascii "/") with 47%nat in H. lia.
Qed.

Lemma strftime_no_slash (t : datetime) : PyStr.contains "/" (strftime t) = false.
Proof.
  rewrite strftime_chars. unfold PyStr.pad4, PyStr.pad2.
  rewrite !PyStrFacts.contains_append.
  cbn [PyStr.contains]. rewrite !digit_not_slash. reflexivity.
Qed.

(** X14: the output key is ["analysis/"] followed by a name without ['/']:
    every analysis lies directly under the [analysis/] prefix, whatever
    directories the source key has. *)
Theorem X14_output_key_is_flat (object_key : string) (t : datetime) :
  exists name,
    output_key_of object_key (strftime t) = "analysis/" ++ name
    /\ PyStr.contains "/" name = false.
Proof.
  eexists. split; [reflexivity |].
  rewrite !PyStrFacts.contains_append.
  rewrite PyStrFacts.replace_clean by discriminate.
  rewrite strftime_no_slash. reflexivity.
Qed.

(** X15: at one timestamp two source keys get the same output key exactly
    when they agree after ['/'] is replaced by ['_']; in particular a key
    and its sanitised form ([a/b.py] and [a_b.py]) collide. *)
Theorem X15_output_key_collisions (k1 k2 timestamp : string) :
  (output_key_of k1 timestamp = output_key_of k2 timestamp
   <-> PyStr.replace "/" "_" k1 = PyStr.replace "/" "_" k2)
  /\ output_key_of (PyStr.replace "/" "_" k1) timestamp
     = output_key_of k1 timestamp.
Proof.
  unfold output_key_of. split; [split |].
  - intros H. apply append_inv_head in H.
    apply append_inv_tail in H. exact H.
  - intros ->. reflexivity.
  - rewrite replace_idempotent by discriminate. reflexivity.
Qed.

(** X16: for one source key, analyses stamped at different calendar seconds
    (of four-digit years) get different output keys. *)
Theorem X16_output_key_per_second (k : string) (t1 t2 : datetime) :
  four_digit_year t1 -> four_digit_year t2 ->
  output_key_of k (strftime t1) = output_key_of k (strftime t2) ->
  t1 = t2.
Proof.
  intros H1 H2 H. unfold output_key_of in H.
  do 3 apply append_inv_head in H. apply append_inv_tail in H.
  pose proof (parse_strftime t1 H1) as P1.
  pose proof (parse_strftime t2 H2) as P2.
  rewrite H in P1. congruence.
Qed.

(** X12: the file type never contains ['.'], is in lower case already, and
    is the empty string exactly for the keys that end in ['.'] (such a key
    does not get ["unknown"]). *)
Theorem X12_file_type_shape (object_key : string) :
  PyStr.contains "." (file_extension_of object_key) = false
  /\ PyStr.lower (file_extension_of object_key) = file_extension_of object_key
  /\ (file_extension_of object_key = ""
      <-> exists stem, object_key = stem ++ ".").
Proof.
  unfold file_extension_of.
  destruct (PyStr.contains "." object_key) eqn:Hc.
  - split; [| split].
    + rewrite contains_dot_lower. apply PyStrFacts.last_item_split_clean.
    + apply lower_idempotent.
    + split.
      * intros H%lower_empty.
        destruct (PyStrFacts.last_item_split_suffix _ _ Hc) as [stem Hs].
        rewrite H in Hs. exists stem. exact Hs.
      * intros [stem ->].
        rewrite (PyStrFacts.last_item_split_append "." stem "" eq_refl).
        reflexivity.
  - split; [reflexivity | split; [reflexivity |]]. split; [discriminate |].
    intros [stem ->]. rewrite PyStrFacts.contains_append in Hc.
    simpl in Hc. rewrite orb_true_r in Hc. discriminate.
Qed.

(** *** Envelopes on every path *)

Lemma round3_nonneg (x : Q) : (0 <= x)%Q -> (0 <= round3 x)%Q.
Proof.
  destruct x as [a d]. unfold Qle, round3. cbn [Qnum Qden]. intros Ha.
  assert (0 <= a * 1000 / Z.pos d)%Z by (apply Z.div_pos; lia).
  destruct (2 * ((a * 1000) mod Z.pos d) ?= Z.pos d)%Z;
    [destruct (Z.odd _) |..]; lia.
Qed.

(** The processing time of an envelope, when it has one, is the rounded
    difference of a later clock read and the first one. *)
Lemma processing_time_cases W event ctx env calls :
  invoke W event ctx = (Ok env, calls) ->
  env !! "processing_time_seconds" = None
  \/ exists n : nat,
       env !! "processing_time_seconds"
       = Some (VFloat (round3 (clock W n - clock W 0))).
Proof.
  unfold invoke, handler, bind, time_time, external, try_except, try_else.
  run_handler.
  repeat case_match; intros Hrun; simplify_eq;
    first [left; reflexivity | right; eexists; reflexivity].
Qed.

(** X11: with a clock that never runs backwards, the processing time of an
    envelope is not negative. *)
Theorem X11_processing_time_nonneg W event ctx env calls q :
  monotone_clock W ->
  invoke W event ctx = (Ok env, calls) ->
  env !! "processing_time_seconds" = Some (VFloat q) ->
  (0 <= q)%Q.
Proof.
  intros Hmono Hrun Hq.
  destruct (processing_time_cases W event ctx env calls Hrun) as [H | [n H]];
    rewrite H in Hq; [discriminate |].
  injection Hq as <-. apply round3_nonneg.
  pose proof (Hmono 0%nat n ltac:(lia)) as Hle.
  unfold Qle in *. unfold Qminus, Qplus, Qopp. cbn [Qnum Qden].
  nia.
Qed.

(** X1: no invocation raises. Whatever the collaborators answer, [handler]
    returns an envelope whose status is ["success"] or ["error"] and which
    has a message. *)
Theorem X1_envelope_always_returned W event ctx :
  exists env calls,
    invoke W event ctx = (Ok env, calls)
    /\ (env !! "status" = Some (VStr "success")
        \/ env !! "status" = Some (VStr "error"))
    /\ exists message, env !! "message" = Some (VStr message).
Proof.
  unfold invoke, handler, bind, time_time, external, try_except, try_else.
  run_handler.
  repeat case_match; simplify_eq;
    (eexists _, _; split; [reflexivity |];
     split; [first [left; reflexivity | right; reflexivity]
            | eexists; reflexivity]).
Qed.

(** X2: the message of an error envelope is the validation message, when
    the first clock read was the only call; or it is a prefix followed by
    the text of the exception raised by the last call of the invocation,
    the one that failed: ["Failed to read file from S3: "] for the read of
    the object, and for any other call ["S3 analysis failed: "] on the
    event-sourced path and ["Analysis failed: "] on the direct-prompt
    path. *)
Theorem X2_error_messages W event ctx env calls :
  invoke W event ctx = (Ok env, calls) ->
  env !! "status" = Some (VStr "success")
  \/ (env !! "status" = Some (VStr "error")
      /\ exists msg,
           env !! "message" = Some (VStr msg)
           /\ error_explained W event calls msg).
Proof.
  unfold invoke, handler, bind, time_time, external, try_except, try_else.
  rewrite marker_test.
  destruct (has_marker event) eqn:Hm; run_handler;
  repeat case_match; intros Hrun; simplify_eq;
    first
      [ left; reflexivity
      | right; split; [reflexivity |]; eexists; split; [reflexivity |];
        first
          [ left; split; reflexivity
          | right; eexists; unfold error_prefix;
            cbn [List.last app raised_by]; rewrite ?Hm;
            repeat match goal with
                   | H : _ = Raise _ |- _ => rewrite H; clear H
                   end;
            split; reflexivity ] ].
Qed.

(** *** The paths one by one *)

Lemma dict_has_present (event : gmap string value) (k : string) (v : value) :
  event !! k = Some v -> dict_has event k = true.
Proof. intros H. unfold dict_has. apply bool_decide_eq_true_2. eauto. Qed.

(** X4: on the direct-prompt path the agent receives the [prompt] value of
    the event as it is, and its answer comes back whole in [analysis] (no
    preview, no truncation) with the prompt echoed in [input_prompt]; the
    calls are two clock reads around the agent, and none to the object
    store. *)
Theorem X4_prompt_success W event ctx p text :
  has_marker event = false ->
  event !! "prompt" = Some p ->
  agent_new W CODE_ANALYSIS_SYSTEM_PROMPT = Ok tt ->
  agent_run W CODE_ANALYSIS_SYSTEM_PROMPT p = Ok text ->
  invoke W event ctx
  = (Ok (dict [("status", VStr "success");
               ("message", VStr "Code analysis completed");
               ("request_id", VStr (request_id_of ctx));
               ("analysis", VStr text);
               ("processing_time_seconds",
                VFloat (round3 (clock W 3 - clock W 0)));
               ("input_prompt", p)]),
     [TimeTime; NewAgent; AgentCall p; TimeTime]).
Proof.
  intros Hm Hp Ha Hr.
  unfold invoke, handler, bind, time_time, external, try_except, try_else.
  rewrite marker_test, Hm, (dict_has_present _ _ _ Hp).
  run_handler. rewrite Hp. change (default (VStr "") (Some p)) with p.
  rewrite Ha, Hr. reflexivity.
Qed.

(** X5: on the direct-prompt path a failure to build the agent or a failing
    agent call gives the error envelope ["Analysis failed: "] followed by
    the exception text, with the request id; no clock is read after the
    failure and the object store is not called. *)
Theorem X5_prompt_failure W event ctx p e :
  has_marker event = false ->
  event !! "prompt" = Some p ->
  agent_new W CODE_ANALYSIS_SYSTEM_PROMPT = Raise e
  \/ (agent_new W CODE_ANALYSIS_SYSTEM_PROMPT = Ok tt
      /\ agent_run W CODE_ANALYSIS_SYSTEM_PROMPT p = Raise e) ->
  exists calls,
    invoke W event ctx
    = (Ok (dict [("status", VStr "error");
                 ("message", VStr ("Analysis failed: " ++ e));
                 ("request_id", VStr (request_id_of ctx))]),
       calls)
    /\ List.last calls TimeTime <> TimeTime
    /\ store_calls calls = [].
Proof.
  intros Hm Hp Hfail.
  unfold invoke, handler, bind, time_time, external, try_except, try_else.
  rewrite marker_test, Hm, (dict_has_present _ _ _ Hp).
  run_handler. rewrite Hp. change (default (VStr "") (Some p)) with p.
  destruct Hfail as [Ha | [Ha Hr]]; rewrite Ha; [| rewrite Hr];
    (eexists; split; [reflexivity |]; split; [discriminate | reflexivity]).
Qed.

(** X6: without the marker [source = "eventbridge"] the [bucket], [key] and
    [outputBucket] fields are ignored: the invocation calls the clock and
    the agent only, never the object store. *)
Theorem X6_unmarked_request_leaves_store_alone W event ctx :
  has_marker event = false ->
  let calls := (invoke W event ctx).2 in
  store_calls calls = []
  /\ Forall (fun c => c = TimeTime \/ c = NewAgent \/ is_agent_call c = true)
       calls.
Proof.
  intros Hm.
  unfold invoke, handler, bind, time_time, external, try_except, try_else.
  rewrite marker_test, Hm. run_handler.
  repeat case_match; simplify_eq; cbn [snd];
    (split; [reflexivity |]); cbn [app];
    repeat (apply List.Forall_cons;
            [first [ left; reflexivity
                   | right; left; reflexivity
                   | right; right; reflexivity ] |]);
    apply List.Forall_nil.
Qed.

(** X7: when the object cannot be read, the envelope is
    ["Failed to read file from S3: "] followed by the exception text,
    without a request id, and the invocation stops after the read: no agent
    is built, nothing is written. *)
Theorem X7_read_failure W event ctx b k e :
  has_marker event = true ->
  event !! "bucket" = Some (VStr b) -> b <> "" ->
  event !! "key" = Some (VStr k) -> k <> "" ->
  s3_client W = Ok tt ->
  s3_get W b k = Raise e ->
  invoke W event ctx
  = (Ok (dict [("status", VStr "error");
               ("message", VStr ("Failed to read file from S3: " ++ e))]),
     [TimeTime; Boto3Client; GetObject (VStr b) (VStr k)]).
Proof.
  intros Hm Hb Hbne Hk Hkne Hc Hg.
  unfold invoke, handler, bind, time_time, external, try_except, try_else.
  rewrite marker_test, Hm.
  assert (dict_get event "bucket" = VStr b) as Eb
    by (unfold dict_get; now rewrite Hb).
  assert (dict_get event "key" = VStr k) as Ek
    by (unfold dict_get; now rewrite Hk).
  run_handler. rewrite !Eb, !Ek.
  rewrite (truthy_nonempty b Hbne), (truthy_nonempty k Hkne).
  change (negb true || negb true) with false. cbv beta iota.
  rewrite Hc, Hg. reflexivity.
Qed.

(** X8: when the S3 client cannot be created, the outer handler of
    [handle_s3_event] reports ["S3 analysis failed: "] followed by the
    exception text, with the request id, and no object is requested. *)
Theorem X8_client_failure W event ctx e :
  has_marker event = true ->
  truthy (dict_get event "bucket") = true ->
  truthy (dict_get event "key") = true ->
  s3_client W = Raise e ->
  invoke W event ctx
  = (Ok (dict [("status", VStr "error");
               ("message", VStr ("S3 analysis failed: " ++ e));
               ("request_id", VStr (request_id_of ctx))]),
     [TimeTime; Boto3Client]).
Proof.
  intros Hm Hb Hk Hc.
  unfold invoke, handler, bind, time_time, external, try_except, try_else.
  rewrite marker_test, Hm. run_handler. rewrite Hb, Hk, Hc. reflexivity.
Qed.

(** X9: the answer of [put_object] has no effect on what the invocation
    returns: the envelope (and the calls made) are the same whether the
    write succeeds or fails, so the response does not tell whether the
    analysis was stored. *)
Theorem X9_write_outcome_invisible W put event ctx :
  invoke (with_put W put) event ctx = invoke W event ctx.
Proof.
  unfold invoke, handler, bind, time_time, external, try_except, try_else.
  run_handler. unfold with_put. cbn [clock calendar s3_client s3_get s3_invalid s3_put agent_new agent_run].
  repeat case_match; simplify_eq; reflexivity.
Qed.

(** X10: an invocation starts with a clock read and makes at most one read
    of the object store, at most one agent call, at most one write, and at
    most eight calls in all. *)
Theorem X10_call_multiplicity W event ctx :
  let calls := (invoke W event ctx).2 in
  List.hd Boto3Client calls = TimeTime
  /\ (count is_get calls <= 1)%nat
  /\ (count is_agent_call calls <= 1)%nat
  /\ (count is_put calls <= 1)%nat
  /\ (List.length calls <= 8)%nat.
Proof.
  unfold invoke, handler, bind, time_time, external, try_except, try_else.
  run_handler.
  repeat case_match; simplify_eq; cbn [snd];
    unfold count; simpl; repeat split; lia.
Qed.

(** X3: every success envelope carries the request id of the context. *)
Theorem X3_success_has_request_id W event ctx env calls :
  invoke W event ctx = (Ok env, calls) ->
  env !! "status" = Some (VStr "success") ->
  env !! "request_id" = Some (VStr (request_id_of ctx)).
Proof.
  intros Hrun Hs.
  destruct (request_id_or_early_return W event ctx env calls Hrun)
    as [H | (_ & _ & He & _)]; [exact H | congruence].
Qed.

(** X13: the preview is at most two characters longer than the analysis,
    and it is longer exactly for analyses of 501 or 502 characters, whose
    "truncated" preview of 503 characters exceeds the text. *)
Theorem X13_preview_can_exceed_text (t : string) :
  (String.length (analysis_preview_of t) <= String.length t + 2)%nat
  /\ ((String.length t < String.length (analysis_preview_of t))%nat
      <-> String.length t = 501%nat \/ String.length t = 502%nat).
Proof.
  unfold analysis_preview_of.
  destruct (Nat.ltb_spec 500 (String.length t)) as [Hlong|Hshort].
  - rewrite PyStrFacts.length_append, PyStrFacts.slice_to_length.
    rewrite Nat.min_l by lia. change (String.length "...") with 3%nat.
    split; [lia |]. split; lia.
  - split; [lia |]. split; lia.
Qed.

(** *** The properties on the sample requests *)

Lemma sample_clock_monotone : monotone_clock Sample.all_well.
Proof.
  intros n m Hnm. unfold Qle. cbn [clock Sample.all_well Qnum Qden]. lia.
Defined.

Lemma X11_witness : (0 <= 125 # 1000)%Q.
Proof.
  apply (X11_processing_time_nonneg Sample.all_well Sample.empty_event
           Sample.context (default_envelope "req-1" (1 # 8))
           [TimeTime; TimeTime]).
  - exact sample_clock_monotone.
  - vm_compute. reflexivity.
  - reflexivity.
Defined.

Lemma X2_witness :
  error_explained Sample.agent_down Sample.prompt_event
    [TimeTime; NewAgent; AgentCall (VStr "review this snippet")]
    "Analysis failed: ThrottlingException".
Proof.
  destruct (X2_error_messages Sample.agent_down Sample.prompt_event
              Sample.context
              (dict [("status", VStr "error");
                     ("message",
                      VStr "Analysis failed: ThrottlingException");
                     ("request_id", VStr "req-1")])
              [TimeTime; NewAgent; AgentCall (VStr "review this snippet")])
    as [Hs | (_ & msg & Hmsg & Hshape)].
  - vm_compute. reflexivity.
  - vm_compute in Hs. discriminate Hs.
  - vm_compute in Hmsg. injection Hmsg as <-. exact Hshape.
Defined.

Lemma X3_witness :
  default_envelope "req-1" (1 # 8) !! "request_id" = Some (VStr "req-1").
Proof.
  apply (X3_success_has_request_id Sample.all_well Sample.empty_event
           Sample.context _ [TimeTime; TimeTime]).
  - vm_compute. reflexivity.
  - reflexivity.
Defined.

Lemma X4_witness :
  invoke Sample.all_well Sample.prompt_event Sample.context
  = (Ok (dict [("status", VStr "success");
               ("message", VStr "Code analysis completed");
               ("request_id", VStr "req-1");
               ("analysis", VStr "Looks fine.");
               ("processing_time_seconds",
                VFloat (round3 (clock Sample.all_well 3
                                - clock Sample.all_well 0)));
               ("input_prompt", VStr "review this snippet")]),
     [TimeTime; NewAgent; AgentCall (VStr "review this snippet"); TimeTime]).
Proof. apply X4_prompt_success; reflexivity. Defined.

Lemma X5_witness :
  exists calls,
    invoke Sample.agent_down Sample.prompt_event Sample.context
    = (Ok (dict [("status", VStr "error");
                 ("message", VStr "Analysis failed: ThrottlingException");
                 ("request_id", VStr "req-1")]),
       calls)
    /\ List.last calls TimeTime <> TimeTime
    /\ store_calls calls = [].
Proof.
  apply (X5_prompt_failure Sample.agent_down Sample.prompt_event
           Sample.context (VStr "review this snippet") "ThrottlingException");
    [reflexivity | reflexivity | right; split; reflexivity].
Defined.

Lemma X6_witness :
  store_calls
    (invoke Sample.all_well Scenario.unmarked_event Sample.context).2 = [].
Proof.
  apply (X6_unmarked_request_leaves_store_alone Sample.all_well
           Scenario.unmarked_event Sample.context).
  reflexivity.
Defined.

Lemma X7_witness :
  invoke Scenario.object_missing Sample.file_event Sample.context
  = (Ok (dict [("status", VStr "error");
               ("message", VStr "Failed to read file from S3: NoSuchKey")]),
     [TimeTime; Boto3Client; GetObject (VStr "src") (VStr "app.py")]).
Proof.
  apply (X7_read_failure Scenario.object_missing Sample.file_event
           Sample.context "src" "app.py" "NoSuchKey");
    first [reflexivity | discriminate].
Defined.

Lemma X8_witness :
  invoke Scenario.no_region Sample.file_event Sample.context
  = (Ok (dict [("status", VStr "error");
               ("message", VStr "S3 analysis failed: NoRegionError");
               ("request_id", VStr "req-1")]),
     [TimeTime; Boto3Client]).
Proof.
  apply (X8_client_failure Scenario.no_region Sample.file_event
           Sample.context "NoRegionError"); reflexivity.
Defined.

Lemma sample_four_digit_year :
  four_digit_year Sample.noon /\ four_digit_year Scenario.new_year.
Proof. unfold four_digit_year. cbn. repeat split; lia. Defined.

Lemma X16_witness :
  output_key_of "app.py" (strftime Sample.noon)
  <> output_key_of "app.py" (strftime Scenario.new_year).
Proof.
  intros H.
  apply (X16_output_key_per_second "app.py" Sample.noon Scenario.new_year
           (proj1 sample_four_digit_year) (proj2 sample_four_digit_year))
    in H.
  discriminate H.
Defined.
